(** * BrAMon: the background monitor of the Browser Activity Monitor extension

    A shallow embedding of [BrowserActivityMonitor] (background script) and of
    the analytics page's summary, with the properties of the request
    correlator, the backup ring and the export functions.

    Modelling conventions.
    - JavaScript values are the first-order type [jsval]; numbers are
      mathematical integers (exact for the integers a double represents
      exactly) plus [JNaN].
    - A JavaScript object is an association list in property insertion order,
      so that [Object.keys] and the spread operator can be followed.
    - Strings are byte strings; [toLowerCase] folds the letters A-Z only.
    - The platform builtins the script calls but does not define ([new URL],
      [JSON.stringify] of a header array, SHA-256) are the methods of the
      class [Platform].
    - [chrome.storage.local], the IndexedDB object store and [localStorage] are
      reliable stores: every put, get, remove and add succeeds, so the [catch]
      branches of the handlers, which only log, are not reachable.
    - Every handler runs as one atomic step: the interleavings that the
      [await] points of the asynchronous handlers permit are not represented. *)

From stdpp Require Import gmap strings list pretty.
From Stdlib Require Import Ascii String ZArith Lia.

Local Open Scope string_scope.
Local Open Scope Z_scope.

(** ** JavaScript values, objects and string primitives *)

Module JS.

Inductive jsval : Type :=
  | JUndef
  | JNull
  | JBool (b : bool)
  | JNum (n : Z)
  | JNaN
  | JStr (s : string).

#[global] Instance jsval_eq_dec : EqDecision jsval.
Proof. solve_decision. Defined.

(** ToBoolean. *)
Definition truthy (v : jsval) : bool :=
  match v with
  | JUndef | JNull | JNaN => false
  | JBool b => b
  | JNum n => negb (n =? 0)
  | JStr s => negb (String.eqb s EmptyString)
  end.

(** [a || b]. *)
Definition js_or (a b : jsval) : jsval := if truthy a then a else b.

(** ToString, as performed by template literals and property keys. *)
Definition ToString (v : jsval) : string :=
  match v with
  | JUndef => "undefined"
  | JNull => "null"
  | JBool true => "true"
  | JBool false => "false"
  | JNum n => pretty n
  | JNaN => "NaN"
  | JStr s => s
  end.

(** [a + b] on the values of the model: concatenation as soon as one operand
    is a string, numeric addition otherwise. *)
Definition ToNumber (v : jsval) : option Z :=
  match v with
  | JNum n => Some n
  | JNull | JBool false => Some 0
  | JBool true => Some 1
  | _ => None
  end.

Definition js_add (a b : jsval) : jsval :=
  match a, b with
  | JStr _, _ | _, JStr _ => JStr (ToString a ++ ToString b)
  | _, _ => match ToNumber a, ToNumber b with
            | Some x, Some y => JNum (x + y)
            | _, _ => JNaN
            end
  end.

(** Objects: own properties in insertion order. *)
Definition obj : Type := list (string * jsval).

Fixpoint obj_get (o : obj) (k : string) : jsval :=
  match o with
  | [] => JUndef
  | (k', v) :: o' => if String.eqb k k' then v else obj_get o' k
  end.

Fixpoint obj_has (o : obj) (k : string) : bool :=
  match o with
  | [] => false
  | (k', _) :: o' => String.eqb k k' || obj_has o' k
  end.

(** [o[k] = v]: an existing property keeps its position, a new one is
    appended. *)
Fixpoint obj_set (k : string) (v : jsval) (o : obj) : obj :=
  match o with
  | [] => [(k, v)]
  | (k', v') :: o' =>
      if String.eqb k k' then (k', v) :: o' else (k', v') :: obj_set k v o'
  end.

(** [{ ...a, ...b }]. *)
Definition spread (a b : obj) : obj :=
  fold_left (fun o kv => obj_set (fst kv) (snd kv) o) b a.

(** [Object.keys(o)] (no property of the records is an array index). *)
Definition keys (o : obj) : list string := map fst o.

(** What [JSON.parse(JSON.stringify(o))] gives back for a flat object:
    properties holding [undefined] are dropped and NaN becomes [null]. *)
Definition json_value (v : jsval) : jsval :=
  match v with JNaN => JNull | _ => v end.

Fixpoint json_norm (o : obj) : obj :=
  match o with
  | [] => []
  | (_, JUndef) :: o' => json_norm o'
  | (k, v) :: o' => (k, json_value v) :: json_norm o'
  end.

(** [Array.prototype.join]. *)
Fixpoint join (sep : string) (l : list string) : string :=
  match l with
  | [] => EmptyString
  | [x] => x
  | x :: l' => x ++ sep ++ join sep l'
  end.

(** [String.prototype.toLowerCase] on the ASCII letters. *)
Definition lower_ascii (c : ascii) : ascii :=
  let n := nat_of_ascii c in
  if ((65 <=? n)%nat && (n <=? 90)%nat)%bool then ascii_of_nat (n + 32) else c.

Fixpoint toLowerCase (s : string) : string :=
  match s with
  | EmptyString => EmptyString
  | String c s' => String (lower_ascii c) (toLowerCase s')
  end.

(** [s.split(sep)] for a one-character separator: never an empty array. *)
Fixpoint split (sep : ascii) (s : string) : list string :=
  match s with
  | EmptyString => [EmptyString]
  | String c s' =>
      if Ascii.eqb c sep then EmptyString :: split sep s'
      else match split sep s' with
           | [] => [String c EmptyString]
           | w :: ws => String c w :: ws
           end
  end.

(** [s.replace(c, '')] with a string pattern: the first occurrence only. *)
Fixpoint remove_first (c : ascii) (s : string) : string :=
  match s with
  | EmptyString => EmptyString
  | String a s' => if Ascii.eqb a c then s' else String a (remove_first c s')
  end.

(** [s.substring(0, n)]. *)
Fixpoint take_str (n : nat) (s : string) : string :=
  match n, s with
  | S n', String c s' => String c (take_str n' s')
  | _, _ => EmptyString
  end.

(** [parseInt(s)] without a radix argument: leading white space, an optional
    sign, an optional [0x] prefix, then the longest run of digits. *)
Definition is_ws (c : ascii) : bool :=
  let n := nat_of_ascii c in
  ((n =? 32) || ((9 <=? n) && (n <=? 13)))%nat%bool.

Fixpoint skip_ws (s : string) : string :=
  match s with
  | String c s' => if is_ws c then skip_ws s' else s
  | EmptyString => EmptyString
  end.

Definition digit_val (radix : Z) (c : ascii) : option Z :=
  let n := Z.of_nat (nat_of_ascii c) in
  let d := if (48 <=? n) && (n <=? 57) then Some (n - 48)
           else if (97 <=? n) && (n <=? 122) then Some (n - 87)
           else if (65 <=? n) && (n <=? 90) then Some (n - 55)
           else None in
  match d with
  | Some v => if v <? radix then Some v else None
  | None => None
  end.

Fixpoint parse_digits (radix : Z) (s : string) (acc : option Z) : option Z :=
  match s with
  | EmptyString => acc
  | String c s' =>
      match digit_val radix c with
      | Some d => parse_digits radix s' (Some (default 0 acc * radix + d))
      | None => acc
      end
  end.

Definition parseInt (s : string) : jsval :=
  let s1 := skip_ws s in
  let '(neg, s2) :=
    match s1 with
    | String "-" r => (true, r)
    | String "+" r => (false, r)
    | _ => (false, s1)
    end in
  let '(radix, s3) :=
    match s2 with
    | String "0" (String "x" r) | String "0" (String "X" r) => (16, r)
    | _ => (10, s2)
    end in
  match parse_digits radix s3 None with
  | Some n => JNum (if neg then - n else n)
  | None => JNaN
  end.

End JS.

(** ** The background monitor *)

Module Monitor.
Import JS.

(** *** Platform interface *)

(** The fields of a [URL] object that the monitor reads. [u_port] is the
    [port] getter: the empty string when the URL carries no port. *)
Record URL : Type := {
  u_protocol : string;
  u_hostname : string;
  u_port : string;
  u_pathname : string
}.

(** One element of an [HttpHeaders] array; [h_value] is [None] when the
    element has no [value] property. *)
Record header : Type := { h_name : string; h_value : option string }.

(** Builtins used by the monitor and defined outside of it. [parseURL] is
    [new URL(s)], [None] standing for the [TypeError] it throws. *)
Class Platform : Type := {
  parseURL : string -> option URL;
  JSON_stringify : list header -> string;
  sha256_hex : string -> string
}.

(** The [details] dictionary of a [chrome.webRequest] event. *)
Record details : Type := {
  requestId : string;
  url : string;
  method : string;
  tabId : Z;
  frameId : Z;
  requestHeaders : option (list header);
  statusCode : option Z;
  statusLine : option string;
  responseHeaders : option (list header)
}.

(** *** Monitor state *)

(** [storage] holds the [req_<id>] entries of [chrome.storage.local]; the
    [disabledDomains] entry of the same store is [savedDomains] (no [req_] key
    equals that name). [db] is the [network_requests] object store in key
    order, [nextId] its key generator, [backup] the array kept under
    [browserActivityData] in [localStorage]. *)
Record state : Type := {
  isMonitoring : bool;
  disabledDomains : gset string;
  savedDomains : gset string;
  storage : gmap string obj;
  db : list obj;
  nextId : Z;
  backup : list obj
}.

Definition initial_state : state :=
  {| isMonitoring := true; disabledDomains := ∅; savedDomains := ∅;
     storage := ∅; db := []; nextId := 1; backup := [] |}.

(** *** Helper methods *)

Section Helpers.
Context {P : Platform}.

Definition extractProtocol (u : string) : string :=
  match parseURL u with
  | Some o => remove_first ":" (u_protocol o)
  | None => "unknown"
  end.

Definition extractPort (u : string) : jsval :=
  match parseURL u with
  | Some urlObj =>
      if truthy (JStr (u_port urlObj)) then parseInt (u_port urlObj)
      else if String.eqb (u_protocol urlObj) "https:" then JNum 443
      else JNum 80
  | None => JNull
  end.

Definition extractFilename (u : string) : string :=
  match parseURL u with
  | Some o =>
      let pathname := u_pathname o in
      ToString (js_or (JStr (List.last (split "/" pathname) EmptyString))
                      (JStr EmptyString))
  | None => EmptyString
  end.

Definition extractDomain (u : string) : string :=
  match parseURL u with
  | Some o => u_hostname o
  | None => "unknown"
  end.

End Helpers.


(** The predicate handed to [headers.find]. *)
Definition header_matches (name : string) (h : header) : bool :=
  truthy (JStr (h_name h))
  && String.eqb (toLowerCase (h_name h)) (toLowerCase name).

(** [header.value]. *)
Definition header_value (h : header) : jsval :=
  match h_value h with Some v => JStr v | None => JUndef end.

Definition getHeaderValue (headers : option (list header)) (name : string)
    : jsval :=
  match headers with
  | None => JStr EmptyString
  | Some hs =>
      match List.find (header_matches name) hs with
      | Some header => header_value header
      | None => JStr EmptyString
      end
  end.

(** [getResponseBody] is a stub in the source: it always returns [null]. *)
Definition getResponseBody (rid : string) : option string := None.

(** *** Temporary storage for request data *)

Definition req_key (rid : string) : string := "req_" ++ rid.

(** [chrome.storage.local] keeps the JSON form of the value it is given. *)
Definition storeRequestData (rid : string) (data : obj) (st : state) : state :=
  {| isMonitoring := isMonitoring st; disabledDomains := disabledDomains st;
     savedDomains := savedDomains st;
     storage := <[req_key rid := json_norm data]> (storage st);
     db := db st; nextId := nextId st; backup := backup st |}.

Definition getRequestData (rid : string) (st : state) : option obj :=
  storage st !! req_key rid.

Definition updateRequestData (rid : string) (data : obj) (st : state) : state :=
  match getRequestData rid st with
  | Some existing => storeRequestData rid (spread existing data) st
  | None => st
  end.

Definition cleanupRequestData (rid : string) (st : state) : state :=
  {| isMonitoring := isMonitoring st; disabledDomains := disabledDomains st;
     savedDomains := savedDomains st;
     storage := delete (req_key rid) (storage st);
     db := db st; nextId := nextId st; backup := backup st |}.

(** *** Backup ring *)

Definition backup_capacity : nat := 1000.

(** [existingData.push(data)], the [splice] that keeps the last 1000 entries,
    and the JSON text written back. *)
Definition saveToLocalStorageBackup (data : obj) (existingData : list obj)
    : list obj :=
  let pushed := (existingData ++ [data])%list in
  let kept :=
    if (backup_capacity <? List.length pushed)%nat
    then drop (List.length pushed - backup_capacity)%nat pushed
    else pushed in
  map json_norm kept.

(** *** Record store *)

Definition record_fields : list string :=
  [ "method"; "protocol"; "port"; "url"; "filename"; "domain"; "user_agent";
    "referer"; "origin"; "cookie"; "vary"; "x_forwarded_for"; "content_type";
    "response_code"; "response_message"; "date"; "server"; "content_length";
    "location"; "response_preview"; "response_checksum"; "tab_id";
    "window_id"; "request_headers"; "response_headers"; "timestamp" ].

(** The object literal built by [storeCompleteRequest]. *)
Definition stored_record (data : obj) : obj :=
  map (fun k => (k, obj_get data k)) record_fields.

(** [store.add] appends the record under the next generated key, which the
    store writes into the [id] property of its copy; the success callback
    then mirrors the record (as passed in) to the backup. *)
Definition storeCompleteRequest (data : obj) (st : state) : state :=
  let requestData := stored_record data in
  {| isMonitoring := isMonitoring st; disabledDomains := disabledDomains st;
     savedDomains := savedDomains st; storage := storage st;
     db := (db st ++ [requestData ++ [("id", JNum (nextId st))]])%list;
     nextId := nextId st + 1;
     backup := saveToLocalStorageBackup requestData (backup st) |}.

Definition getAllData (st : state) : list obj := db st.

(** *** The three phase handlers *)

Section Handlers.
Context {P : Platform}.

(** The object literals of the three handlers. [now] is
    [new Date().toISOString()] and [win] the outcome of
    [getWindowId(details.tabId)] at the time of the event. *)
Definition requestData (now : string) (win : jsval) (d : details) : obj :=
  [ ("method", js_or (JStr (method d)) (JStr "UNKNOWN"));
    ("protocol", JStr (extractProtocol (url d)));
    ("port", extractPort (url d));
    ("url", js_or (JStr (url d)) (JStr EmptyString));
    ("filename", JStr (extractFilename (url d)));
    ("domain", JStr (extractDomain (url d)));
    ("tab_id", js_or (JNum (tabId d)) (JNum (-1)));
    ("window_id", if frameId d =? 0 then win else JNull);
    ("request_headers",
       JStr (JSON_stringify (default [] (requestHeaders d))));
    ("timestamp", JStr now) ].

Definition responseData (d : details) : obj :=
  let hs := default [] (responseHeaders d) in
  [ ("response_code", JNum (default 0 (statusCode d)));
    ("response_message", JStr (default EmptyString (statusLine d)));
    ("content_type", getHeaderValue (Some hs) "content-type");
    ("content_length",
       js_or (parseInt (ToString (getHeaderValue (Some hs) "content-length")))
             (JNum 0));
    ("server", getHeaderValue (Some hs) "server");
    ("date", getHeaderValue (Some hs) "date");
    ("location", getHeaderValue (Some hs) "location");
    ("vary", getHeaderValue (Some hs) "vary");
    ("response_headers", JStr (JSON_stringify hs)) ].

Definition additionalHeaders (d : details) : obj :=
  let hs := Some (default [] (requestHeaders d)) in
  [ ("user_agent", getHeaderValue hs "user-agent");
    ("referer", getHeaderValue hs "referer");
    ("origin", getHeaderValue hs "origin");
    ("cookie", getHeaderValue hs "cookie");
    ("x_forwarded_for", getHeaderValue hs "x-forwarded-for") ].

(** [completeData] once the body preview and checksum have been attempted. *)
Definition completeData (d : details) (pending : obj) : obj :=
  let merged := spread pending (additionalHeaders d) in
  match getResponseBody (requestId d) with
  | Some responseBody =>
      if truthy (JStr responseBody) then
        obj_set "response_checksum" (JStr (sha256_hex responseBody))
          (obj_set "response_preview" (JStr (take_str 16 responseBody)) merged)
      else merged
  | None => merged
  end.

Definition handleRequest (now : string) (win : jsval) (d : details)
    (st : state) : state :=
  if negb (isMonitoring st) then st
  else
    let domain := extractDomain (url d) in
    if decide (domain ∈ disabledDomains st) then st
    else storeRequestData (requestId d) (requestData now win d) st.

Definition handleResponse (d : details) (st : state) : state :=
  if negb (isMonitoring st) then st
  else updateRequestData (requestId d) (responseData d) st.

Definition handleCompleted (d : details) (st : state) : state :=
  if negb (isMonitoring st) then st
  else
    let st' :=
      match getRequestData (requestId d) st with
      | Some pending => storeCompleteRequest (completeData d pending) st
      | None => st
      end in
    cleanupRequestData (requestId d) st'.

End Handlers.

(** *** Popup controls and domain management *)

Definition startMonitoring (st : state) : state :=
  {| isMonitoring := true; disabledDomains := disabledDomains st;
     savedDomains := savedDomains st; storage := storage st;
     db := db st; nextId := nextId st; backup := backup st |}.

Definition stopMonitoring (st : state) : state :=
  {| isMonitoring := false; disabledDomains := disabledDomains st;
     savedDomains := savedDomains st; storage := storage st;
     db := db st; nextId := nextId st; backup := backup st |}.

Definition disableDomain (domain : string) (st : state) : state :=
  let ds := {[ domain ]} ∪ disabledDomains st in
  {| isMonitoring := isMonitoring st; disabledDomains := ds;
     savedDomains := ds; storage := storage st;
     db := db st; nextId := nextId st; backup := backup st |}.

Definition enableDomain (domain : string) (st : state) : state :=
  let ds := disabledDomains st ∖ {[ domain ]} in
  {| isMonitoring := isMonitoring st; disabledDomains := ds;
     savedDomains := ds; storage := storage st;
     db := db st; nextId := nextId st; backup := backup st |}.

Definition isDomainDisabled (domain : string) (st : state) : bool :=
  bool_decide (domain ∈ disabledDomains st).

(** *** Event traces *)

Inductive event : Type :=
  | Phase1 (now : string) (win : jsval) (d : details)
  | Phase2 (d : details)
  | Phase3 (d : details)
  | Start
  | Stop
  | DisableDomain (domain : string)
  | EnableDomain (domain : string).

(** The correlation key an event carries, if any. *)
Definition event_key (e : event) : option string :=
  match e with
  | Phase1 _ _ d | Phase2 d | Phase3 d => Some (requestId d)
  | _ => None
  end.

Definition step {P : Platform} (e : event) (st : state) : state :=
  match e with
  | Phase1 now win d => handleRequest now win d st
  | Phase2 d => handleResponse d st
  | Phase3 d => handleCompleted d st
  | Start => startMonitoring st
  | Stop => stopMonitoring st
  | DisableDomain dom => disableDomain dom st
  | EnableDomain dom => enableDomain dom st
  end.

Fixpoint run {P : Platform} (es : list event) (st : state) : state :=
  match es with
  | [] => st
  | e :: es' => run es' (step e st)
  end.

Definition concerns (k : string) (e : event) : bool :=
  bool_decide (event_key e = Some k).

(** Every phase-1 event of the trace that carries key [k] finds its domain
    in the excluded set at the moment it is handled. *)
Fixpoint phase1_excluded {P : Platform} (k : string) (es : list event)
    (st : state) : bool :=
  match es with
  | [] => true
  | e :: es' =>
      match e with
      | Phase1 _ _ d =>
          if String.eqb (requestId d) k
          then bool_decide (extractDomain (url d) ∈ disabledDomains st)
          else true
      | _ => true
      end
      && phase1_excluded k es' (step e st)
  end.

End Monitor.

(** ** Export and summary *)

Module Exporter.
Import JS Monitor.

(** *** Summary of the text archive ([generateSummary] of the background
    script) *)

(** The four count objects are finite maps from property key to count; keys
    that name a member of [Object.prototype] are outside the model. *)
Record summary : Type := {
  total_requests : nat;
  unique_domains : nat;
  methods : gmap string nat;
  status_codes : gmap string nat;
  content_types : gmap string nat;
  protocols : gmap string nat
}.

(** [m[k] = (m[k] || 0) + 1]. *)
Definition bump (k : string) (m : gmap string nat) : gmap string nat :=
  <[k := S (default 0%nat (m !! k))]> m.

Section Summary.
Context {P : Platform}.

(** The callback mapped over the records to collect host names. *)
Definition hostname_of (r : obj) : string :=
  match parseURL (ToString (obj_get r "url")) with
  | Some o => u_hostname o
  | None => "unknown"
  end.

(** The body of the [forEach]; [None] is the [TypeError] raised when a truthy
    [content_type] is not a string and so has no [split]. *)
Definition count_request (s : summary) (request : obj) : option summary :=
  let content_type := obj_get request "content_type" in
  content_types' ←
    (if truthy content_type then
       match content_type with
       | JStr c => Some (bump (List.hd EmptyString (split ";" c))
                              (content_types s))
       | _ => None
       end
     else Some (content_types s));
  Some {| total_requests := total_requests s;
          unique_domains := unique_domains s;
          methods := bump (ToString (obj_get request "method")) (methods s);
          status_codes :=
            bump (ToString (obj_get request "response_code")) (status_codes s);
          content_types := content_types';
          protocols :=
            bump (ToString (obj_get request "protocol")) (protocols s) |}.

(** One turn of the [forEach], an exception raised earlier being kept. *)
Definition summary_step (acc : option summary) (request : obj)
    : option summary :=
  s ← acc; count_request s request.

Definition generateSummary (data : list obj) : option summary :=
  let summary0 :=
    {| total_requests := List.length data;
       unique_domains :=
         size (list_to_set (map hostname_of data) : gset string);
       methods := ∅; status_codes := ∅; content_types := ∅; protocols := ∅ |} in
  foldl summary_step (Some summary0) data.

End Summary.

(** The key under which a record is counted in [content_types], if any. *)
Definition content_type_key (request : obj) : option string :=
  match obj_get request "content_type" with
  | JStr c => if truthy (JStr c) then Some (List.hd EmptyString (split ";" c))
              else None
  | _ => None
  end.

(** Records whose [content_type] is a string or falsy, as the monitor
    stores them. *)
Definition content_type_ok (request : obj) : Prop :=
  truthy (obj_get request "content_type") = true →
  ∃ c, obj_get request "content_type" = JStr c.

Definition count_by (f : obj → bool) (data : list obj) : nat :=
  List.length (List.filter f data).

Definition has_key (field k : string) (request : obj) : bool :=
  bool_decide (ToString (obj_get request field) = k).


(** *** CSV *)

Definition dquote : string := String (ascii_of_nat 34) EmptyString.
Definition newline : string := String (ascii_of_nat 10) EmptyString.

(** One interpolated cell: a double quote, [row[header] || ''], a double
    quote. *)
Definition csv_cell (row : obj) (header : string) : string :=
  dquote ++ ToString (js_or (obj_get row header) (JStr EmptyString)) ++ dquote.

Definition convertToCSV (data : list obj) : string :=
  match data with
  | [] => EmptyString
  | first :: _ =>
      let headers := keys first in
      join newline
        (join "," headers
           :: map (fun row => join "," (map (csv_cell row) headers)) data)
  end.

(** *** SQL script *)

Definition sqlite_header : string :=
  "SQLite format 3" ++ String (ascii_of_nat 0) EmptyString.

(** [record.f || ''] and [record.f || 'NULL'] inside the template. *)
Definition sql_text (v : jsval) : string :=
  ToString (js_or v (JStr EmptyString)).

Definition sql_number (v : jsval) : string :=
  ToString (js_or v (JStr "NULL")).

Definition createTableSQL : string :=
  "
      CREATE TABLE IF NOT EXISTS network_requests (
        id INTEGER PRIMARY KEY AUTOINCREMENT,
        timestamp TEXT,
        method TEXT,
        protocol TEXT,
        port INTEGER,
        url TEXT,
        filename TEXT,
        domain TEXT,
        user_agent TEXT,
        referer TEXT,
        origin TEXT,
        cookie TEXT,
        vary TEXT,
        x_forwarded_for TEXT,
        content_type TEXT,
        response_code INTEGER,
        response_message TEXT,
        date TEXT,
        server TEXT,
        content_length INTEGER,
        location TEXT,
        response_preview TEXT,
        response_checksum TEXT,
        tab_id INTEGER,
        window_id INTEGER,
        request_headers TEXT,
        response_headers TEXT
      );
    ".

Definition insertSQL (record : obj) : string :=
  String.concat EmptyString
    [ "
        INSERT INTO network_requests (
          timestamp, method, protocol, port, url, filename, domain,
          user_agent, referer, origin, cookie, vary, x_forwarded_for,
          content_type, response_code, response_message, date, server,
          content_length, location, response_preview, response_checksum,
          tab_id, window_id, request_headers, response_headers
        ) VALUES (
          '";
      ToString (obj_get record "timestamp");
      "', '";
      ToString (obj_get record "method");
      "', '";
      ToString (obj_get record "protocol");
      "', ";
      sql_number (obj_get record "port");
      ",
          '";
      ToString (obj_get record "url");
      "', '";
      ToString (obj_get record "filename");
      "', '";
      ToString (obj_get record "domain");
      "',
          '";
      sql_text (obj_get record "user_agent");
      "', '";
      sql_text (obj_get record "referer");
      "', '";
      sql_text (obj_get record "origin");
      "',
          '";
      sql_text (obj_get record "cookie");
      "', '";
      sql_text (obj_get record "vary");
      "', '";
      sql_text (obj_get record "x_forwarded_for");
      "',
          '";
      sql_text (obj_get record "content_type");
      "', ";
      sql_number (obj_get record "response_code");
      ", '";
      sql_text (obj_get record "response_message");
      "',
          '";
      sql_text (obj_get record "date");
      "', '";
      sql_text (obj_get record "server");
      "', ";
      sql_number (obj_get record "content_length");
      ",
          '";
      sql_text (obj_get record "location");
      "', '";
      sql_text (obj_get record "response_preview");
      "', '";
      sql_text (obj_get record "response_checksum");
      "',
          ";
      sql_number (obj_get record "tab_id");
      ", ";
      sql_number (obj_get record "window_id");
      ",
          '";
      sql_text (obj_get record "request_headers");
      "', '";
      sql_text (obj_get record "response_headers");
      "'
        );
      " ].

Definition createSQLiteDatabase (data : list obj) : string :=
  foldl (fun sqliteContent record => sqliteContent ++ insertSQL record)
        (sqlite_header ++ createTableSQL) data.


(** Reading a script back: the number of places where a text occurs, and
    the column names that a [CREATE TABLE] text declares (first word of each
    line between the opening line and the closing parenthesis). *)
Fixpoint count_substr (p s : string) : nat :=
  match s with
  | EmptyString => if String.prefix p EmptyString then 1%nat else 0%nat
  | String _ s' =>
      ((if String.prefix p s then 1 else 0) + count_substr p s')%nat
  end.

Fixpoint skip_spaces (s : string) : string :=
  match s with
  | String " " s' => skip_spaces s'
  | _ => s
  end.

Fixpoint first_word (s : string) : string :=
  match s with
  | EmptyString => EmptyString
  | String c s' =>
      if Ascii.eqb c " " then EmptyString else String c (first_word s')
  end.

Definition declared_columns (text : string) : list string :=
  let lines := map skip_spaces (split (ascii_of_nat 10) text) in
  let decls :=
    List.filter (fun l => negb (String.eqb l EmptyString)
                          && negb (String.prefix "CREATE" l)
                          && negb (String.prefix ")" l)) lines in
  map first_word decls.

End Exporter.

(** ** Summary of the analytics page *)

Module Analytics.
Import JS Monitor.

Record summary : Type := {
  total_requests : nat;
  unique_domains : nat;
  methods : gmap string nat;
  status_codes : gmap string nat;
  content_types : gmap string nat;
  protocols : gmap string nat;
  total_size : jsval;
  avg_response_time : Z
}.

Section Summary.
Context {P : Platform}.

Definition count_request (s : summary) (request : obj) : option summary :=
  let content_type := obj_get request "content_type" in
  content_types' ←
    (if truthy content_type then
       match content_type with
       | JStr c => Some (Exporter.bump (List.hd EmptyString (split ";" c))
                                     (content_types s))
       | _ => None
       end
     else Some (content_types s));
  Some {| total_requests := total_requests s;
          unique_domains := unique_domains s;
          methods :=
            Exporter.bump (ToString (obj_get request "method")) (methods s);
          status_codes :=
            Exporter.bump (ToString (obj_get request "response_code"))
                        (status_codes s);
          content_types := content_types';
          protocols :=
            Exporter.bump (ToString (obj_get request "protocol")) (protocols s);
          total_size :=
            js_add (total_size s)
                   (js_or (obj_get request "content_length") (JNum 0));
          avg_response_time := avg_response_time s |}.

Definition generateSummary (data : list obj) : option summary :=
  match data with
  | [] =>
      Some {| total_requests := 0; unique_domains := 0; methods := ∅;
              status_codes := ∅; content_types := ∅; protocols := ∅;
              total_size := JNum 0; avg_response_time := 0 |}
  | _ =>
      let summary0 :=
        {| total_requests := List.length data;
           unique_domains :=
             size (list_to_set (map Exporter.hostname_of data) : gset string);
           methods := ∅; status_codes := ∅; content_types := ∅;
           protocols := ∅; total_size := JNum 0; avg_response_time := 0 |} in
      foldl (fun acc request => s ← acc; count_request s request)
            (Some summary0) data
  end.

End Summary.

End Analytics.

(** ** A reference platform *)

(** A concrete instance of [Platform] on which the development is run on
    sample events. It reads URLs of the shape
    [scheme://host[:port][/path][?query][#fragment]] and hides the port when
    it is the default of the scheme, as the [port] getter does. *)
Module Reference.
Import JS Monitor.

Fixpoint break_at (c : ascii) (s : string) : option (string * string) :=
  match s with
  | EmptyString => None
  | String a s' =>
      if Ascii.eqb a c then Some (EmptyString, s')
      else match break_at c s' with
           | Some (l, r) => Some (String a l, r)
           | None => None
           end
  end.

Fixpoint span_until (stop : ascii -> bool) (s : string) : string * string :=
  match s with
  | EmptyString => (EmptyString, EmptyString)
  | String a s' =>
      if stop a then (EmptyString, s)
      else let '(l, r) := span_until stop s' in (String a l, r)
  end.

Definition default_port (scheme : string) : string :=
  if String.eqb scheme "https" then "443"
  else if String.eqb scheme "wss" then "443"
  else if String.eqb scheme "http" then "80"
  else if String.eqb scheme "ws" then "80"
  else if String.eqb scheme "ftp" then "21"
  else EmptyString.

Definition is_path_start (c : ascii) : bool :=
  Ascii.eqb c "/" || Ascii.eqb c "?" || Ascii.eqb c "#".

Definition is_path_end (c : ascii) : bool :=
  Ascii.eqb c "?" || Ascii.eqb c "#".

Definition parse (s : string) : option URL :=
  match break_at ":" s with
  | Some (scheme, String "/" (String "/" rest)) =>
      let scheme := toLowerCase scheme in
      let '(authority, tail) := span_until is_path_start rest in
      let '(host, port) :=
        match break_at ":" authority with
        | Some (h, p) => (h, p)
        | None => (authority, EmptyString)
        end in
      let '(path, _) := span_until is_path_end tail in
      if String.eqb scheme EmptyString || String.eqb host EmptyString
      then None
      else Some {| u_protocol := scheme ++ ":";
                   u_hostname := toLowerCase host;
                   u_port := if String.eqb port (default_port scheme)
                             then EmptyString else port;
                   u_pathname := if String.eqb path EmptyString
                                 then "/" else path |}
  | _ => None
  end.

(** Headers rendered as a JSON array, for names and values that need no
    escaping. *)
Definition stringify_header (h : header) : string :=
  let q := String (ascii_of_nat 34) EmptyString in
  "{" ++ q ++ "name" ++ q ++ ":" ++ q ++ h_name h ++ q
  ++ match h_value h with
     | Some v => "," ++ q ++ "value" ++ q ++ ":" ++ q ++ v ++ q
     | None => EmptyString
     end
  ++ "}".

Definition stringify (hs : list header) : string :=
  "[" ++ join "," (map stringify_header hs) ++ "]".

(** The digest is never requested, [getResponseBody] yielding no body. *)
Definition platform : Platform :=
  {| parseURL := parse;
     JSON_stringify := stringify;
     sha256_hex := fun _ => EmptyString |}.

(** The events of the scenario
    [phase1("r1", "https://example.com/a.js", GET)], [phase2("r1", 200, ...)],
    [phase3("r1", ...)]. *)
Definition r1_request : details :=
  {| requestId := "r1"; url := "https://example.com/a.js"; method := "GET";
     tabId := 7; frameId := 0; requestHeaders := None;
     statusCode := None; statusLine := None; responseHeaders := None |}.

Definition r1_response : details :=
  {| requestId := "r1"; url := "https://example.com/a.js"; method := "GET";
     tabId := 7; frameId := 0; requestHeaders := None;
     statusCode := Some 200; statusLine := Some "HTTP/1.1 200 OK";
     responseHeaders :=
       Some [ {| h_name := "Content-Type";
                 h_value := Some "application/javascript" |};
              {| h_name := "Content-Length"; h_value := Some "0" |} ] |}.

Definition r1_completed : details :=
  {| requestId := "r1"; url := "https://example.com/a.js"; method := "GET";
     tabId := 7; frameId := 0;
     requestHeaders := Some [ {| h_name := "User-Agent";
                                 h_value := Some "UA1" |} ];
     statusCode := Some 200; statusLine := Some "HTTP/1.1 200 OK";
     responseHeaders := None |}.

Definition r2_request : details :=
  {| requestId := "r2"; url := "https://example.com/b"; method := "GET";
     tabId := 7; frameId := 1; requestHeaders := None;
     statusCode := None; statusLine := None; responseHeaders := None |}.

(** Sample runs. *)
Definition t1 : string := "2026-01-01T00:00:00.000Z".
Definition t2 : string := "2026-01-01T00:00:01.000Z".

(** Key [r1] after phase 1 and phase 2. *)
Definition st_pending : state :=
  @run platform [Phase1 t1 (JNum 3) r1_request; Phase2 r1_response]
       initial_state.

(** The same, with monitoring stopped before phase 3 arrives. *)
Definition st_stopped : state := @run platform [Stop] st_pending.

(** Key [r1] after its three phases. *)
Definition st_final : state := @run platform [Phase3 r1_completed] st_pending.

(** [example.com] excluded before anything is observed. *)
Definition st_excluded : state := disableDomain "example.com" initial_state.

Definition size5 : obj :=
  [ ("url", JStr "https://example.com/a"); ("content_length", JNum 5) ].
Definition size7 : obj :=
  [ ("url", JStr "https://example.com/a"); ("content_length", JNum 7) ].
Definition size0 : obj :=
  [ ("url", JStr "https://example.com/a"); ("content_length", JNum 0) ].

End Reference.

(** ** Helpers of the analytics page *)

Module Dashboard.
Import JS.

(** [truncateUrl(url, maxLength)]; the table calls it with the default 50. *)
Definition truncateUrl (url : string) (maxLength : nat) : string :=
  if (String.length url <=? maxLength)%nat then url
  else take_str maxLength url ++ "...".

(** What one call of [sendMessage] comes to: a response object, or an
    exception whose [message] is given. *)
Inductive outcome : Type :=
  | Resolved (response : obj)
  | Threw (message : jsval).

(** The delay before the next attempt, [Math.min(1000 * attempt, 5000)]. *)
Definition retry_delay (attempt : nat) : nat := Nat.min (1000 * attempt) 5000.

(** The [for] loop of [sendMessageWithRetry] from attempt number [attempt]
    on, [remaining] being the number of attempts left; [send i] is what the
    [i]-th call of [sendMessage] comes to. The result is the returned object
    together with the delays waited, in order. *)
Fixpoint retry_loop (send : nat -> outcome) (maxRetries attempt remaining : nat)
    (lastError : jsval) (waited : list nat) : obj * list nat :=
  match remaining with
  | O =>
      ([ ("success", JBool false);
         ("error", js_or lastError (JStr "Max retries exceeded")) ], waited)
  | S remaining' =>
      let after_failure (lastError' : jsval) :=
        retry_loop send maxRetries (S attempt) remaining' lastError'
          (if (attempt <? maxRetries)%nat
           then (waited ++ [retry_delay attempt])%list else waited) in
      match send attempt with
      | Resolved response =>
          if truthy (obj_get response "success") then (response, waited)
          else after_failure
                 (js_or (obj_get response "error") (JStr "Unknown error"))
      | Threw message => after_failure message
      end
  end.

Definition sendMessageWithRetry (send : nat -> outcome) (maxRetries : nat)
    : obj * list nat :=
  retry_loop send maxRetries 1 maxRetries JNull [].

End Dashboard.

(** ** Observations on traces and records *)

Module Observe.
Import JS Monitor Exporter.

(** The properties written by each of the three handlers. *)
Definition phase1_fields : list string :=
  [ "method"; "protocol"; "port"; "url"; "filename"; "domain"; "tab_id";
    "window_id"; "request_headers"; "timestamp" ].

Definition phase2_fields : list string :=
  [ "response_code"; "response_message"; "content_type"; "content_length";
    "server"; "date"; "location"; "vary"; "response_headers" ].

Definition phase3_fields : list string :=
  [ "user_agent"; "referer"; "origin"; "cookie"; "x_forwarded_for" ].

(** A pending record as [chrome.storage.local] returns it: no repeated key
    and in JSON form. *)
Definition well_formed (o : obj) : Prop :=
  NoDup (keys o) ∧ json_norm o = o.

Definition is_phase (e : event) : bool :=
  match e with
  | Phase1 _ _ _ | Phase2 _ | Phase3 _ => true
  | _ => false
  end.

Definition is_phase1 (e : event) : bool :=
  match e with Phase1 _ _ _ => true | _ => false end.

Definition is_phase3_of (k : string) (e : event) : bool :=
  match e with
  | Phase3 d => bool_decide (requestId d = k)
  | _ => false
  end.

(** The form in which a record of the store sits in the backup. *)
Definition backup_form (r : obj) : obj := json_norm (stored_record r).

(** The counts of a group added up. *)
Definition sum_counts (m : gmap string nat) : nat :=
  map_fold (fun _ c acc => (c + acc)%nat) 0%nat m.

(** The number a [content_length] field contributes to a total. *)
Definition length_of (r : obj) : Z :=
  match obj_get r "content_length" with
  | JNum n => n
  | _ => 0
  end.

Definition total_length (data : list obj) : Z :=
  foldr (fun r acc => length_of r + acc) 0 data.

End Observe.

(** * Properties *)

Import JS Monitor Exporter.

(** ** Objects and strings *)


Lemma obj_get_set_ne (o : obj) (k k' : string) (v : jsval) :
  k ≠ k' → obj_get (obj_set k v o) k' = obj_get o k'.
Proof.
  intros Hne. induction o as [|[k0 v0] o IH]; simpl.
  - destruct (String.eqb k' k) eqn:E; [|done].
    apply String.eqb_eq in E. congruence.
  - destruct (String.eqb k k0) eqn:E; simpl.
    + apply String.eqb_eq in E. subst k0.
      destruct (String.eqb k' k) eqn:E'; [|done].
      apply String.eqb_eq in E'. congruence.
    + by rewrite IH.
Qed.

Lemma truthy_false_cases (v : jsval) :
  truthy v = false ↔
  v = JUndef ∨ v = JNull ∨ v = JNaN ∨ v = JBool false ∨ v = JNum 0
  ∨ v = JStr EmptyString.
Proof.
  split.
  - destruct v as [| |[]|n| |s]; simpl; intros H; try discriminate; auto 7.
    + apply negb_false_iff, Z.eqb_eq in H. subst. auto 7.
    + apply negb_false_iff, String.eqb_eq in H. subst. auto 7.
  - intros [->|[->|[->|[->|[->| ->]]]]]; reflexivity.
Qed.

(** ** Transient store *)

Lemma req_key_inj (a b : string) : req_key a = req_key b → a = b.
Proof. unfold req_key. intros H. cbv [String.append] in H. congruence. Qed.

Lemma cleanupRequestData_absent (rid : string) (st : state) :
  getRequestData rid st = None → cleanupRequestData rid st = st.
Proof.
  unfold getRequestData, cleanupRequestData. intros H.
  destruct st; simpl in *. f_equal. by apply delete_id.
Qed.

Section Correlator.
Context {P : Platform}.

Lemma handleRequest_excluded now win d st :
  extractDomain (url d) ∈ disabledDomains st → handleRequest now win d st = st.
Proof.
  intros H. unfold handleRequest.
  destruct (isMonitoring st); simpl; [|done]. by rewrite decide_True.
Qed.

Lemma handleResponse_absent d st :
  getRequestData (requestId d) st = None → handleResponse d st = st.
Proof.
  intros H. unfold handleResponse, updateRequestData.
  destruct (isMonitoring st); simpl; [|done]. by rewrite H.
Qed.

Lemma handleCompleted_absent d st :
  getRequestData (requestId d) st = None → handleCompleted d st = st.
Proof.
  intros H. unfold handleCompleted.
  destruct (isMonitoring st); simpl; [|done].
  rewrite H. by apply cleanupRequestData_absent.
Qed.

(** An event that does not carry key [k] leaves the pending entry of [k] as
    it is. *)
Lemma step_other_key k e st :
  concerns k e = false →
  getRequestData k (step e st) = getRequestData k st.
Proof.
  unfold concerns. intros Hk. apply bool_decide_eq_false in Hk.
  assert (Hins : ∀ rid data, rid ≠ k →
    getRequestData k (storeRequestData rid data st) = getRequestData k st).
  { intros rid data Hne. unfold getRequestData, storeRequestData. simpl.
    apply lookup_insert_ne. intros Heq. by apply req_key_inj in Heq. }
  destruct e as [now win d|d|d| | |dom|dom]; simpl in *; try done.
  - assert (requestId d ≠ k) by congruence.
    unfold handleRequest. destruct (isMonitoring st); simpl; [|done].
    case_decide; [done|]. by apply Hins.
  - assert (requestId d ≠ k) by congruence.
    unfold handleResponse, updateRequestData.
    destruct (isMonitoring st); simpl; [|done].
    destruct (getRequestData (requestId d) st); [|done]. by apply Hins.
  - assert (Hne : requestId d ≠ k) by congruence.
    unfold handleCompleted. destruct (isMonitoring st); simpl; [|done].
    unfold getRequestData at 1. unfold cleanupRequestData. simpl.
    rewrite lookup_delete_ne.
    + by destruct (getRequestData (requestId d) st).
    + intros Heq. by apply req_key_inj in Heq.
Qed.

(** An event that carries key [k] is a no-op when [k] is not pending and, if
    it is a phase-1 event, its domain is excluded. *)
Lemma step_excluded_key k e es st :
  concerns k e = true →
  getRequestData k st = None →
  phase1_excluded k (e :: es) st = true →
  step e st = st.
Proof.
  unfold concerns. intros Hk Habs Hex. apply bool_decide_eq_true in Hk.
  destruct e as [now win d|d|d| | |dom|dom]; simpl in *; try discriminate.
  - assert (requestId d = k) as Hd by congruence.
    apply andb_true_iff in Hex as [Hex _].
    apply String.eqb_eq in Hd as Hd'. rewrite Hd' in Hex.
    apply bool_decide_eq_true in Hex. by apply handleRequest_excluded.
  - assert (requestId d = k) as <- by congruence.
    by apply handleResponse_absent.
  - assert (requestId d = k) as <- by congruence.
    by apply handleCompleted_absent.
Qed.

Lemma phase1_excluded_tail k e es st :
  phase1_excluded k (e :: es) st = true →
  phase1_excluded k es (step e st) = true.
Proof. simpl. intros H. by apply andb_true_iff in H as [_ H]. Qed.

Lemma excluded_key_run k es st :
  getRequestData k st = None →
  phase1_excluded k es st = true →
  run es st = run (List.filter (fun e => negb (concerns k e)) es) st
  ∧ getRequestData k (run es st) = None.
Proof.
  revert st. induction es as [|e es IH]; intros st Habs Hex; [done|].
  pose proof (phase1_excluded_tail _ _ _ _ Hex) as Htl.
  cbn [run List.filter].
  destruct (concerns k e) eqn:Hk; cbn [negb].
  - rewrite (step_excluded_key k e es st Hk Habs Hex) in *.
    by apply IH.
  - cbn [run]. apply IH; [|done]. by rewrite step_other_key.
Qed.

Lemma phase1_excluded_take k n es st :
  phase1_excluded k es st = true →
  phase1_excluded k (take n es) st = true.
Proof.
  revert n st. induction es as [|e es IH]; intros [|n] st H; try done.
  cbn [take]. simpl in *. apply andb_true_iff in H as [H1 H2].
  apply andb_true_iff. split; [done|]. by apply IH.
Qed.

(** C1. A correlation key whose phase-1 events all find their domain in the
    excluded set never gets a pending record: starting from a state in which
    the key is not pending, at every point of every trace the key is absent
    from the transient store, its phase-1, phase-2 and phase-3 events leave
    the whole state unchanged, and the trace ends in the state reached by the
    same trace with the events of that key removed, so the record store and
    the backup hold nothing written for that key. *)
Theorem excluded_key_never_recorded (k : string) (es : list event)
    (st : state) :
  getRequestData k st = None →
  phase1_excluded k es st = true →
  (∀ n, getRequestData k (run (take n es) st) = None)
  ∧ (∀ n e, es !! n = Some e → concerns k e = true →
       step e (run (take n es) st) = run (take n es) st)
  ∧ run es st = run (List.filter (fun e => negb (concerns k e)) es) st
  ∧ db (run es st)
    = db (run (List.filter (fun e => negb (concerns k e)) es) st).
Proof.
  intros Habs Hex. split; [|split; [|split]].
  - intros n. apply excluded_key_run; [done|].
    by apply phase1_excluded_take.
  - intros n e Hn Hk.
    assert (Hsplit : take (S n) es = (take n es ++ [e])%list).
    { by apply take_S_r. }
    pose proof (phase1_excluded_take k (S n) es st Hex) as Hex'.
    rewrite Hsplit in Hex'.
    assert (Hgen : ∀ l s, phase1_excluded k (l ++ [e])%list s = true →
              phase1_excluded k [e] (run l s) = true).
    { induction l as [|a l IHl]; intros s Hs; [done|].
      cbn [run]. apply IHl. by apply phase1_excluded_tail in Hs. }
    apply (step_excluded_key k e []); [done| |by apply Hgen].
    apply excluded_key_run; [done|]. by apply phase1_excluded_take.
  - by apply excluded_key_run.
  - f_equal. by apply excluded_key_run.
Qed.

End Correlator.

Section Finalization.
Context {P : Platform}.





(** C3, as amended. A phase-1 event for a key that already has a pending
    record replaces that record by the one built from the new event alone
    when monitoring is enabled and the domain is not excluded; when
    monitoring is stopped or the domain is excluded the state is unchanged.
    The pending records of the other keys are untouched in both cases. *)
Theorem duplicate_phase1_replaces_pending (now : string) (win : jsval)
    (d : details) (st : state) (old : obj) :
  getRequestData (requestId d) st = Some old →
  (isMonitoring st = true → extractDomain (url d) ∉ disabledDomains st →
     getRequestData (requestId d) (handleRequest now win d st)
     = Some (json_norm (requestData now win d)))
  ∧ (isMonitoring st = false ∨ extractDomain (url d) ∈ disabledDomains st →
     handleRequest now win d st = st)
  ∧ (∀ k, k ≠ requestId d →
     getRequestData k (handleRequest now win d st) = getRequestData k st).
Proof.
  intros _. split; [|split].
  - intros Hm Hd. unfold handleRequest. rewrite Hm. simpl.
    rewrite decide_False by done.
    unfold getRequestData, storeRequestData. simpl. apply lookup_insert_eq.
  - intros [Hm|Hd].
    + unfold handleRequest. by rewrite Hm.
    + by apply handleRequest_excluded.
  - intros k Hk.
    apply (step_other_key k (Phase1 now win d)).
    unfold concerns. apply bool_decide_eq_false. simpl. congruence.
Qed.

End Finalization.

(** ** Header lookup *)

Lemma header_matches_lower (n n' : string) (h : header) :
  toLowerCase n = toLowerCase n' → header_matches n h = header_matches n' h.
Proof. unfold header_matches. by intros ->. Qed.

Lemma header_matches_false (n : string) (h : header) :
  toLowerCase (h_name h) ≠ toLowerCase n → header_matches n h = false.
Proof.
  intros Hne. unfold header_matches. apply andb_false_iff. right.
  by apply String.eqb_neq.
Qed.

Lemma header_matches_true (n : string) (h : header) :
  h_name h ≠ EmptyString → toLowerCase (h_name h) = toLowerCase n →
  header_matches n h = true.
Proof.
  intros Hne Heq. unfold header_matches. apply andb_true_iff. split.
  - simpl. apply negb_true_iff. by apply String.eqb_neq.
  - by apply String.eqb_eq.
Qed.

Lemma find_none_of_no_match (n : string) (hs : list header) :
  (∀ h, h ∈ hs → toLowerCase (h_name h) ≠ toLowerCase n) →
  List.find (header_matches n) hs = None.
Proof.
  induction hs as [|h hs IH]; intros Hall; [done|]. simpl.
  rewrite header_matches_false by (apply Hall; left).
  apply IH. intros h' Hin. apply Hall. by right.
Qed.

(** C8. Header lookup compares names through [toLowerCase] on both sides:
    the result does not change when the requested name is replaced by one
    with the same lower-case form, and the first element whose (non-empty)
    name has the lower-case form of the requested name supplies the result.
    When no element of the list has that lower-case name, or when there is
    no list, the result is the empty string. *)
Theorem getHeaderValue_case_insensitive_default :
  (∀ hs n n', toLowerCase n = toLowerCase n' →
     getHeaderValue hs n = getHeaderValue hs n')
  ∧ (∀ hs1 h hs2 n,
       (∀ h', h' ∈ hs1 → toLowerCase (h_name h') ≠ toLowerCase n) →
       h_name h ≠ EmptyString →
       toLowerCase (h_name h) = toLowerCase n →
       getHeaderValue (Some (hs1 ++ h :: hs2)%list) n = header_value h)
  ∧ (∀ hs n,
       (∀ h, h ∈ hs → toLowerCase (h_name h) ≠ toLowerCase n) →
       getHeaderValue (Some hs) n = JStr EmptyString)
  ∧ (∀ n, getHeaderValue None n = JStr EmptyString).
Proof.
  split; [|split; [|split]].
  - intros [hs|] n n' Hl; [|done]. unfold getHeaderValue.
    assert (Hf : ∀ l, List.find (header_matches n) l
                      = List.find (header_matches n') l).
    { induction l as [|h l IH]; [done|]. simpl.
      by rewrite (header_matches_lower n n' h Hl), IH. }
    by rewrite Hf.
  - intros hs1 h hs2 n Hpre Hne Heq. unfold getHeaderValue, header_value.
    assert (Hf : List.find (header_matches n) (hs1 ++ h :: hs2)%list = Some h).
    { induction hs1 as [|a hs1 IH]; simpl.
      - by rewrite header_matches_true.
      - rewrite header_matches_false by (apply Hpre; left).
        apply IH. intros h' Hin. apply Hpre. by right. }
    by rewrite Hf.
  - intros hs n Hall. unfold getHeaderValue.
    by rewrite find_none_of_no_match.
  - done.
Qed.

(** [toLowerCase] folds exactly the letters A-Z. *)
Example toLowerCase_content_type :
  toLowerCase "Content-TYPE" = "content-type".
Proof. reflexivity. Qed.

Lemma toLowerCase_idemp (s : string) :
  toLowerCase (toLowerCase s) = toLowerCase s.
Proof.
  induction s as [|c s IH]; [done|]. simpl. f_equal; [|done].
  destruct c as [[] [] [] [] [] [] [] []]; reflexivity.
Qed.

(** ** URL-derived fields *)







Lemma split_nonempty (sep : ascii) (p : string) :
  ∃ w ws, split sep p = w :: ws.
Proof.
  destruct p as [|c p]; cbn [split]; [by eauto|].
  destruct (Ascii.eqb c sep); [by eauto|].
  destruct (split sep p); eauto.
Qed.




Section UrlFields.
Context {P : Platform}.


End UrlFields.

(** ** Backup ring *)

Lemma json_norm_idemp (o : obj) : json_norm (json_norm o) = json_norm o.
Proof.
  induction o as [|[k v] o IH]; [done|].
  destruct v; simpl; by rewrite ?IH.
Qed.

Lemma saveToLocalStorageBackup_length (d : obj) (ring : list obj) :
  List.length (saveToLocalStorageBackup d ring)
  = Nat.min (S (List.length ring)) backup_capacity.
Proof.
  unfold saveToLocalStorageBackup. rewrite length_map.
  destruct (backup_capacity <? List.length (ring ++ [d]))%nat eqn:E.
  - apply Nat.ltb_lt in E. rewrite length_drop.
    rewrite length_app in *. cbn [List.length] in *. lia.
  - apply Nat.ltb_ge in E. rewrite length_app in *. cbn [List.length] in *.
    lia.
Qed.

Lemma saveToLocalStorageBackup_full (d oldest : obj) (rest : list obj) :
  List.length (oldest :: rest) = backup_capacity →
  saveToLocalStorageBackup d (oldest :: rest) = map json_norm (rest ++ [d]).
Proof.
  intros Hlen. unfold saveToLocalStorageBackup.
  assert (Hl : List.length ((oldest :: rest) ++ [d])%list
               = S backup_capacity).
  { rewrite length_app, Hlen. cbn [List.length]. lia. }
  rewrite Hl.
  assert ((backup_capacity <? S backup_capacity)%nat = true) as ->
    by (apply Nat.ltb_lt; lia).
  by replace (S backup_capacity - backup_capacity)%nat with 1%nat by lia.
Qed.

Lemma step_backup_bounded {P : Platform} (e : event) (st : state) :
  (List.length (backup st) ≤ backup_capacity)%nat →
  (List.length (backup (step e st)) ≤ backup_capacity)%nat.
Proof.
  intros Hb.
  destruct e as [now win d|d|d| | |dom|dom]; simpl; try done.
  - unfold handleRequest. destruct (isMonitoring st); simpl; [|done].
    by case_decide.
  - unfold handleResponse, updateRequestData.
    destruct (isMonitoring st); simpl; [|done].
    by destruct (getRequestData (requestId d) st).
  - unfold handleCompleted. destruct (isMonitoring st); simpl; [|done].
    destruct (getRequestData (requestId d) st); simpl; [|done].
    rewrite saveToLocalStorageBackup_length. lia.
Qed.

(** C6. The backup never holds more than 1000 records: every push leaves at
    most 1000, and the bound is kept by every sequence of pushes and by every
    trace of monitor events. A push onto a ring of exactly 1000 records drops
    the oldest record, keeps the others in order, appends the new one and
    leaves the length at 1000. *)
Theorem backup_ring_bounded :
  backup_capacity = 1000%nat
  ∧ (∀ ring d,
       (List.length (saveToLocalStorageBackup d ring) ≤ backup_capacity)%nat)
  ∧ (∀ ring records,
       (List.length ring ≤ backup_capacity)%nat →
       (List.length (foldl (fun r d => saveToLocalStorageBackup d r)
                           ring records) ≤ backup_capacity)%nat)
  ∧ (∀ oldest rest d,
       List.length (oldest :: rest) = backup_capacity →
       saveToLocalStorageBackup d (oldest :: rest)
       = map json_norm (rest ++ [d])
       ∧ List.length (saveToLocalStorageBackup d (oldest :: rest))
         = backup_capacity
       ∧ (Forall (fun o => json_norm o = o) rest →
          saveToLocalStorageBackup d (oldest :: rest)
          = (rest ++ [json_norm d])%list))
  ∧ (∀ (P : Platform) es st,
       (List.length (backup st) ≤ backup_capacity)%nat →
       (List.length (backup (run es st)) ≤ backup_capacity)%nat).
Proof.
  split; [done|]. split; [|split; [|split]].
  - intros ring d. rewrite saveToLocalStorageBackup_length. lia.
  - intros ring records. revert ring.
    induction records as [|d records IH]; intros ring Hlen; [done|].
    cbn [foldl]. apply IH. rewrite saveToLocalStorageBackup_length. lia.
  - intros oldest rest d Hlen. split; [|split].
    + by apply saveToLocalStorageBackup_full.
    + rewrite saveToLocalStorageBackup_length, Hlen. lia.
    + intros Hn. rewrite saveToLocalStorageBackup_full by done.
      rewrite map_app. f_equal.
      clear Hlen.
      induction Hn as [|o l Ho _ IHl]; [done|]. simpl. by rewrite Ho, IHl.
  - intros P es. induction es as [|e es IH]; intros st Hlen; [done|].
    cbn [run]. apply IH. by apply step_backup_bounded.
Qed.

(** ** CSV *)

Lemma csv_cell_falsy (row : obj) (header : string) :
  truthy (obj_get row header) = false → csv_cell row header = dquote ++ dquote.
Proof. intros H. unfold csv_cell, js_or. by rewrite H. Qed.

(** C10. The CSV text of the empty list is the empty string. For a
    non-empty list the text is the header row (the keys of the first record)
    followed by one row per record, and in every row a field whose value is
    falsy (absent, [null], 0, NaN, [false] or the empty string) is the quoted
    empty string; a field holding zero is therefore rendered as an absent
    one. *)
Theorem convertToCSV_falsy_cells :
  convertToCSV [] = EmptyString
  ∧ (∀ first rest,
       convertToCSV (first :: rest)
       = join newline
           (join "," (keys first)
              :: map (fun row => join "," (map (csv_cell row) (keys first)))
                     (first :: rest)))
  ∧ (∀ row header,
       truthy (obj_get row header) = false →
       csv_cell row header = dquote ++ dquote)
  ∧ (∀ row header,
       obj_has row header = false → csv_cell row header = dquote ++ dquote)
  ∧ (∀ row row' header,
       obj_get row header = JNum 0 → obj_has row' header = false →
       csv_cell row header = csv_cell row' header).
Proof.
  assert (Habs : ∀ row header,
            obj_has row header = false → obj_get row header = JUndef).
  { intros row header. induction row as [|[k v] row IH]; [done|]. simpl.
    destruct (String.eqb header k); [done|]. apply IH. }
  split; [done|]. split; [done|]. split; [apply csv_cell_falsy|]. split.
  - intros row header H. apply csv_cell_falsy. by rewrite Habs.
  - intros row row' header H0 H'.
    rewrite !csv_cell_falsy; [done|by rewrite Habs|by rewrite H0].
Qed.

(** ** SQL script *)








(** C7, as amended. The script exported for the empty record set is the
    header string followed by the [CREATE TABLE IF NOT EXISTS] statement and
    nothing else: the statement occurs once, it declares the 27 columns of
    the enumeration, from [id] to [response_headers], and the script holds
    no [INSERT]. *)
Theorem empty_export_is_header_and_schema :
  createSQLiteDatabase [] = sqlite_header ++ createTableSQL
  ∧ count_substr "CREATE TABLE IF NOT EXISTS" (createSQLiteDatabase []) = 1%nat
  ∧ declared_columns createTableSQL
    = [ "id"; "timestamp"; "method"; "protocol"; "port"; "url"; "filename";
        "domain"; "user_agent"; "referer"; "origin"; "cookie"; "vary";
        "x_forwarded_for"; "content_type"; "response_code";
        "response_message"; "date"; "server"; "content_length"; "location";
        "response_preview"; "response_checksum"; "tab_id"; "window_id";
        "request_headers"; "response_headers" ]
  ∧ List.length (declared_columns createTableSQL) = 27%nat
  ∧ count_substr "INSERT" (createSQLiteDatabase []) = 0%nat.
Proof. repeat split; vm_compute; reflexivity. Qed.

(** ** Summary *)

Lemma bump_lookup (k k' : string) (m : gmap string nat) :
  default 0%nat (bump k m !! k')
  = ((if bool_decide (k = k') then 1 else 0) + default 0%nat (m !! k'))%nat.
Proof.
  unfold bump. case_bool_decide as Hk.
  - subst. by rewrite lookup_insert_eq.
  - by rewrite lookup_insert_ne.
Qed.

(** The first piece of [c.split(';')] is the part of [c] before its first
    semicolon. *)
Lemma split_head_prefix (sep : ascii) (c : string) :
  ∃ rest, c = List.hd EmptyString (split sep c) ++ rest
          ∧ (rest = EmptyString ∨ ∃ r, rest = String sep r)
          ∧ sep ∉ list_ascii_of_string (List.hd EmptyString (split sep c)).
Proof.
  induction c as [|a c IH].
  - exists EmptyString. split; [done|]. split; [by left|apply not_elem_of_nil].
  - destruct IH as (rest & Hc & Hrest & Hnin).
    cbn [split]. destruct (Ascii.eqb a sep) eqn:E.
    + apply Ascii.eqb_eq in E. subst a. exists (String sep c).
      split; [done|]. split; [by eauto|apply not_elem_of_nil].
    + apply Ascii.eqb_neq in E.
      destruct (split_nonempty sep c) as (w & ws & Hw). rewrite Hw in *.
      cbn [List.hd] in *. exists rest. split; [|split; [done|]].
      * change (String a c = String a (w ++ rest)). by rewrite <- Hc.
      * cbn [list_ascii_of_string]. apply not_elem_of_cons. by split.
Qed.

Section SummaryProperties.
Context {P : Platform}.

Lemma summary_fold_none (data : list obj) : foldl summary_step None data = None.
Proof. by induction data. Qed.

Lemma count_request_some (s0 s1 : summary) (r : obj) :
  count_request s0 r = Some s1 →
  total_requests s1 = total_requests s0
  ∧ unique_domains s1 = unique_domains s0
  ∧ methods s1 = bump (ToString (obj_get r "method")) (methods s0)
  ∧ status_codes s1
    = bump (ToString (obj_get r "response_code")) (status_codes s0)
  ∧ protocols s1 = bump (ToString (obj_get r "protocol")) (protocols s0)
  ∧ content_types s1
    = match content_type_key r with
      | Some k => bump k (content_types s0)
      | None => content_types s0
      end.
Proof.
  unfold count_request, content_type_key.
  destruct (obj_get r "content_type") as [| |[]|n| |c]; simpl.
  all: try discriminate.
  all: try (by intros [= <-]).
  - destruct (n =? 0); simpl; [by intros [= <-]|discriminate].
  - destruct (String.eqb c EmptyString); simpl; by intros [= <-].
Qed.

Lemma count_by_cons (f : obj → bool) (r : obj) (data : list obj) :
  count_by f (r :: data) = ((if f r then 1 else 0) + count_by f data)%nat.
Proof. unfold count_by. cbn [List.filter]. by destruct (f r). Qed.

Lemma summary_fold_counts (data : list obj) (s0 s : summary) :
  foldl summary_step (Some s0) data = Some s →
  total_requests s = total_requests s0
  ∧ unique_domains s = unique_domains s0
  ∧ (∀ k, default 0%nat (methods s !! k)
          = (default 0%nat (methods s0 !! k)
             + count_by (has_key "method" k) data)%nat)
  ∧ (∀ k, default 0%nat (status_codes s !! k)
          = (default 0%nat (status_codes s0 !! k)
             + count_by (has_key "response_code" k) data)%nat)
  ∧ (∀ k, default 0%nat (protocols s !! k)
          = (default 0%nat (protocols s0 !! k)
             + count_by (has_key "protocol" k) data)%nat)
  ∧ (∀ k, default 0%nat (content_types s !! k)
          = (default 0%nat (content_types s0 !! k)
             + count_by (fun r => bool_decide (content_type_key r = Some k))
                        data)%nat).
Proof.
  revert s0. induction data as [|r data IH]; intros s0 Hs.
  - simpl in Hs. injection Hs as <-. unfold count_by. simpl.
    repeat split; intros; lia.
  - cbn [foldl] in Hs.
    destruct (summary_step (Some s0) r) as [s1|] eqn:H1;
      [|by rewrite summary_fold_none in Hs].
    destruct (IH s1 Hs) as (Ht & Hu & Hm & Hc & Hp & Hy).
    apply count_request_some in H1 as (Ht1 & Hu1 & Hm1 & Hc1 & Hp1 & Hy1).
    split; [congruence|]. split; [congruence|].
    split; [|split; [|split]]; intros k; rewrite count_by_cons.
    + rewrite Hm, Hm1, bump_lookup. unfold has_key. lia.
    + rewrite Hc, Hc1, bump_lookup. unfold has_key. lia.
    + rewrite Hp, Hp1, bump_lookup. unfold has_key. lia.
    + rewrite Hy, Hy1. destruct (content_type_key r) as [k'|].
      * rewrite bump_lookup.
        case_bool_decide; case_bool_decide; simplify_eq; lia.
      * rewrite bool_decide_eq_false_2 by done. lia.
Qed.

(** What the summary of the archive holds: the number of records, the number
    of distinct host names, and for each of method, response code, protocol
    and content-type major type the number of records counted under a key. *)
Lemma generateSummary_counts (data : list obj) (s : summary) :
  generateSummary data = Some s →
  total_requests s = List.length data
  ∧ unique_domains s = size (list_to_set (map hostname_of data) : gset string)
  ∧ (∀ k, default 0%nat (methods s !! k) = count_by (has_key "method" k) data)
  ∧ (∀ k, default 0%nat (status_codes s !! k)
          = count_by (has_key "response_code" k) data)
  ∧ (∀ k, default 0%nat (protocols s !! k)
          = count_by (has_key "protocol" k) data)
  ∧ (∀ k, default 0%nat (content_types s !! k)
          = count_by (fun r => bool_decide (content_type_key r = Some k))
                     data).
Proof.
  unfold generateSummary. intros Hs.
  apply summary_fold_counts in Hs as (Ht & Hu & Hm & Hc & Hp & Hy).
  simpl in *. split; [done|]. split; [done|].
  split; [|split; [|split]]; intros k.
  - by rewrite Hm, lookup_empty.
  - by rewrite Hc, lookup_empty.
  - by rewrite Hp, lookup_empty.
  - by rewrite Hy, lookup_empty.
Qed.

Lemma generateSummary_total (data : list obj) :
  Forall content_type_ok data → is_Some (generateSummary data).
Proof.
  unfold generateSummary. generalize
    {| total_requests := List.length data;
       unique_domains :=
         size (list_to_set (map hostname_of data) : gset string);
       methods := ∅; status_codes := ∅; content_types := ∅;
       protocols := ∅ |}.
  intros s0 Hok. revert s0.
  induction Hok as [|r data Hr _ IH]; intros s0; [by eexists|].
  cbn [foldl]. unfold summary_step, count_request. simpl.
  unfold content_type_ok in Hr.
  destruct (truthy (obj_get r "content_type")) eqn:Ht.
  - destruct (Hr eq_refl) as [c ->]. simpl. apply IH.
  - simpl. apply IH.
Qed.

Lemma count_request_content_length (s : summary) (r : obj) (v : jsval) :
  count_request s (obj_set "content_length" v r) = count_request s r.
Proof. unfold count_request. by rewrite !obj_get_set_ne by done. Qed.

Lemma hostname_of_content_length (r : obj) (v : jsval) :
  hostname_of (obj_set "content_length" v r) = hostname_of r.
Proof. unfold hostname_of. by rewrite obj_get_set_ne by done. Qed.

(** The summary of the archive does not depend on the content lengths of the
    records: it carries no total of them. *)
Lemma generateSummary_ignores_content_length (data : list obj) (v : jsval) :
  generateSummary (map (obj_set "content_length" v) data)
  = generateSummary data.
Proof.
  unfold generateSummary. rewrite length_map, map_map.
  rewrite (map_ext _ hostname_of) by (intros; apply hostname_of_content_length).
  generalize
    (Some {| total_requests := List.length data;
             unique_domains :=
               size (list_to_set (map hostname_of data) : gset string);
             methods := ∅; status_codes := ∅; content_types := ∅;
             protocols := ∅ |}).
  induction data as [|r data IH]; intros acc; [done|].
  cbn [map foldl]. rewrite <- IH. f_equal.
  destruct acc as [s|]; [|done]. simpl. apply count_request_content_length.
Qed.

End SummaryProperties.

(** The summary of the analytics page, in contrast, adds up the content
    lengths. *)
Lemma analytics_total_size_step {P : Platform} (s s' : Analytics.summary)
    (r : obj) :
  Analytics.count_request s r = Some s' →
  Analytics.total_size s'
  = js_add (Analytics.total_size s)
           (js_or (obj_get r "content_length") (JNum 0)).
Proof.
  unfold Analytics.count_request.
  destruct (if truthy (obj_get r "content_type") then _ else _); simpl;
    [|discriminate].
  by intros [= <-].
Qed.

(** ** Runs on the reference platform *)

Section Runs.
Import Reference.

(** The scenario of the three phases of [r1]: one finalized record with the
    fields of all three events. *)
Example scenario_three_phases :
  ∃ record,
    db st_final = [record]
    ∧ map (obj_get record)
        [ "method"; "protocol"; "port"; "domain"; "filename";
          "response_code"; "content_type"; "user_agent"; "id" ]
      = [ JStr "GET"; JStr "https"; JNum 443; JStr "example.com";
          JStr "a.js"; JNum 200; JStr "application/javascript"; JStr "UA1";
          JNum 1 ]
    ∧ storage st_final = ∅
    ∧ backup st_final = [json_norm (stored_record record)].
Proof. eexists. repeat split; vm_compute; reflexivity. Qed.

Lemma excluded_key_never_recorded_witness :
  let es := [Phase1 t1 JNull r2_request; Phase2 r1_response;
             Phase3 r2_request] in
  run (P := platform) es st_excluded
  = run (P := platform)
        (List.filter (fun e => negb (concerns "r2" e)) es) st_excluded
  ∧ db (run (P := platform) es st_excluded) = [].
Proof.
  intros es.
  destruct (excluded_key_never_recorded (P := platform) "r2" es st_excluded)
    as (_ & _ & Hrun & Hdb).
  - vm_compute. reflexivity.
  - vm_compute. reflexivity.
  - split; [exact Hrun|]. rewrite Hdb. vm_compute. reflexivity.
Defined.



(** A second phase-1 event for a pending key replaces the pending record:
    the response code merged by phase 2 is gone and the time stamp is the
    one of the second event. *)
Lemma duplicate_phase1_overwrites_example :
  ∃ old new,
    getRequestData "r1" st_pending = Some old
    ∧ getRequestData "r1"
        (handleRequest (P := platform) t2 (JNum 3) r1_request st_pending)
      = Some new
    ∧ old ≠ new
    ∧ obj_get old "response_code" = JNum 200
    ∧ obj_get new "response_code" = JUndef
    ∧ obj_get old "timestamp" = JStr t1
    ∧ obj_get new "timestamp" = JStr t2.
Proof.
  eexists _, _. split; [vm_compute; reflexivity|].
  split; [vm_compute; reflexivity|]. split; [discriminate|].
  repeat split; vm_compute; reflexivity.
Qed.

Lemma duplicate_phase1_replaces_pending_witness :
  getRequestData "r1"
    (handleRequest (P := platform) t2 (JNum 3) r1_request st_pending)
  = Some (json_norm (requestData (P := platform) t2 (JNum 3) r1_request))
  ∧ handleRequest (P := platform) t2 (JNum 3) r1_request st_stopped
    = st_stopped.
Proof.
  split.
  - destruct (duplicate_phase1_replaces_pending (P := platform) t2 (JNum 3)
                r1_request st_pending
                (default [] (getRequestData "r1" st_pending)))
      as (Hnew & _ & _).
    + vm_compute. reflexivity.
    + apply Hnew; [vm_compute; reflexivity|].
      vm_compute. discriminate.
  - destruct (duplicate_phase1_replaces_pending (P := platform) t2 (JNum 3)
                r1_request st_stopped
                (default [] (getRequestData "r1" st_stopped)))
      as (_ & Hsame & _).
    + vm_compute. reflexivity.
    + apply Hsame. left. vm_compute. reflexivity.
Defined.

(** C4. The summary written into the text archive has the request count,
    the number of distinct host names and the four groups of counts, but no
    total of the content lengths: replacing the content lengths of the
    records never changes it, and two record sets of 5 and of 7 bytes have
    the same summary. The summary of the analytics page computes that total
    (5 and 7) for the same inputs. *)
Theorem archive_summary_lacks_total_content_length :
  (∀ (P : Platform) data v,
     generateSummary (map (obj_set "content_length" v) data)
     = generateSummary data)
  ∧ generateSummary (P := platform) [size5]
    = generateSummary (P := platform) [size7]
  ∧ is_Some (generateSummary (P := platform) [size5])
  ∧ Analytics.total_size <$> Analytics.generateSummary (P := platform) [size5]
    = Some (JNum 5)
  ∧ Analytics.total_size <$> Analytics.generateSummary (P := platform) [size7]
    = Some (JNum 7).
Proof.
  split; [intros; apply generateSummary_ignores_content_length|].
  split.
  - apply (generateSummary_ignores_content_length (P := platform)
             [size7] (JNum 5)).
  - split; [vm_compute; eauto|]. split; vm_compute; reflexivity.
Qed.



(** The [CREATE TABLE] statement declares 27 columns, not 26: the generated
    [id] and the 26 fields of a record. *)
Lemma schema_has_27_columns_not_26 :
  ¬ (createSQLiteDatabase [] = sqlite_header ++ createTableSQL
     ∧ List.length (declared_columns createTableSQL) = 26%nat
     ∧ count_substr "INSERT" (createSQLiteDatabase []) = 0%nat).
Proof. intros (_ & H & _). vm_compute in H. discriminate. Qed.

Lemma backup_ring_bounded_witness :
  List.length (saveToLocalStorageBackup size7 (replicate 1000 size5))
  = 1000%nat
  ∧ saveToLocalStorageBackup size7 (replicate 1000 size5)
    = (replicate 999 size5 ++ [size7])%list
  ∧ (List.length (backup st_final) ≤ 1000)%nat.
Proof.
  destruct backup_ring_bounded as (Hcap & _ & _ & Hfull & Hrun).
  destruct (Hfull size5 (replicate 999 size5) size7) as (_ & Hlen & Hkeep).
  - vm_compute. reflexivity.
  - split; [exact Hlen|]. split.
    + apply Hkeep. apply Forall_forall. intros o Ho.
      apply elem_of_replicate in Ho as [-> _]. reflexivity.
    + rewrite <- Hcap.
      apply (Hrun Reference.platform
               [Phase1 t1 (JNum 3) r1_request; Phase2 r1_response;
                Phase3 r1_completed] initial_state).
      vm_compute. lia.
Defined.

Lemma getHeaderValue_case_insensitive_default_witness :
  getHeaderValue (responseHeaders r1_response) "content-type"
  = JStr "application/javascript"
  ∧ getHeaderValue (responseHeaders r1_response) "CONTENT-type"
    = getHeaderValue (responseHeaders r1_response) "content-type"
  ∧ getHeaderValue (responseHeaders r1_response) "server" = JStr EmptyString.
Proof.
  destruct getHeaderValue_case_insensitive_default
    as (Hcase & Hfound & Habsent & _).
  split; [|split].
  - apply (Hfound [] {| h_name := "Content-Type";
                        h_value := Some "application/javascript" |}).
    + intros h Hh. by apply not_elem_of_nil in Hh.
    + discriminate.
    + vm_compute. reflexivity.
  - apply Hcase. vm_compute. reflexivity.
  - apply Habsent. intros h Hh.
    repeat (apply elem_of_cons in Hh as [->|Hh]);
      [vm_compute; discriminate..|by apply not_elem_of_nil in Hh].
Defined.


Lemma convertToCSV_falsy_cells_witness :
  csv_cell size5 "port" = dquote ++ dquote
  ∧ csv_cell size0 "content_length"
    = csv_cell [("url", JStr "https://example.com/a")] "content_length"
  ∧ convertToCSV [] = EmptyString.
Proof.
  destruct convertToCSV_falsy_cells as (Hempty & _ & Hfalsy & _ & Hzero).
  split; [apply Hfalsy; vm_compute; reflexivity|].
  split; [apply Hzero; vm_compute; reflexivity|exact Hempty].
Defined.

End Runs.
